(** * libiocage / libioc: jail enumeration and the puppet provisioner

    A shallow embedding of

    - [src/libiocage/lib/Jails.py]  (classes [JailsGenerator] and [Jails]),
    - [src/libioc/Provisioning/puppet.py]  (class [ControlRepoDefinition]
      and the generator function [provision]),

    followed by the properties of the natural-language specification,
    stated over that embedding.

    Conventions of the embedding.

    - A Python call that may raise returns a [result]: [Ok v] or [Raise e].
    - A generator is a resumable machine: its state, and a [next] function
      that runs the body up to the following [yield].
    - Code that mutates the outside world (dataset store, file system, mount
      table, package subsystem) runs in the monad [M] of module [puppet]:
      a state holding the world, the events yielded so far and the log of
      the collaborator calls made so far, with exceptions. *)

From Stdlib Require Import String Ascii List Bool Arith Lia.
From stdpp Require Import base option list strings gmap.
From Equations Require Import Equations.

Import ListNotations.
Local Open Scope string_scope.
Local Open Scope list_scope.

Set Default Proof Using "Type".

(** ** Python values shared by the two modules *)

Module Py.

(** The exceptions that the modelled code can meet. [ExternalError] stands
    for whatever a collaborator (libzfs, git, the fstab, pkg) raises. *)
Inductive exn : Type :=
| IndexError (msg : string)
| AttributeError (attr : string)
| ExternalError (what : string).

Inductive result (A : Type) : Type :=
| Ok (a : A)
| Raise (e : exn).
Arguments Ok {A} a.
Arguments Raise {A} e.

Definition nl : string := String (ascii_of_nat 10) EmptyString.

(** [s.startswith(p)] *)
Definition startswith (s p : string) : bool := String.prefix p s.

(** [s.split(sep)] for a one-character separator: the segments between
    the separators, empty segments kept, never the empty list. *)
Fixpoint split (sep : ascii) (s : string) : list string :=
  match s with
  | EmptyString => [EmptyString]
  | String c s' =>
      if Ascii.eqb c sep then EmptyString :: split sep s'
      else match split sep s' with
           | [] => [String c EmptyString]
           | w :: ws => String c w :: ws
           end
  end.

(** [l.pop()]: the last element and the list without it; [IndexError] on
    the empty list. *)
Fixpoint pop {A} (l : list A) : result (A * list A) :=
  match l with
  | [] => Raise (IndexError "pop from empty list")
  | [x] => Ok (x, [])
  | x :: l' =>
      match pop l' with
      | Ok (y, r) => Ok (y, x :: r)
      | Raise e => Raise e
      end
  end.

(** The characters of a string, each as a one-character string: what
    iterating over a [str] produces. *)
Fixpoint chars (s : string) : list string :=
  match s with
  | EmptyString => []
  | String c s' => String c EmptyString :: chars s'
  end.

(** [l += s] for a list [l] and a string [s]: the list is extended by the
    elements of the iterable [s], that is by its characters. *)
Definition iadd_str (l : list string) (s : string) : list string :=
  l ++ chars s.

(** [needle in haystack] on strings. *)
Fixpoint contains (haystack needle : string) : bool :=
  String.prefix needle haystack ||
  match haystack with
  | EmptyString => false
  | String _ h' => contains h' needle
  end.


End Py.
Export Py.

(** ** libzfs: the part of a dataset handle that the code reads *)

Module libzfs.
Record ZFSDataset : Type := { name : string; mountpoint : string }.
End libzfs.

(** ** src/libiocage/lib/Jails.py *)

(** What Jails.py imports and does not define: the host with its dataset
    tree, the jail class, and the filter terms. They are interfaces here;
    [JailFilter] below gives the filter engine the specification
    describes. *)
Class JailLib : Type := {
  Logger : Type;
  Host : Type;
  ZFS : Type;
  (** [host.datasets.jails.children], in the store's listing order *)
  jails_children : Host -> list libzfs.ZFSDataset;
  (** [libiocage.lib.Jail.Jail(data, logger=.., host=.., zfs=..)];
      loading a jail may raise *)
  Jail : Type;
  Jail_new : list (string * string) -> Logger -> Host -> ZFS -> result Jail;
  (** an attribute stored on the jail object ([jail.name], [jail.jid], ...) *)
  jail_getattr : Jail -> string -> option string;
  (** a key of the jail's configuration store *)
  jail_config : Jail -> string -> option string
}.

Class FilterEngine `{JailLib} : Type := {
  (** [libiocage.lib.JailFilter.Terms] *)
  Terms : Type;
  match_key : Terms -> string -> string -> bool;
  match_jail : Terms -> Jail -> bool
}.

(** The two classes of the file; [Jails] inherits from [JailsGenerator]
    and overrides [_create_jail] and [__iter__]. *)
Inductive class : Type := JailsGenerator_class | Jails_class.

Record instance `{FilterEngine} : Type := {
  __class__ : class;
  logger : Logger;
  host : Host;
  zfs : ZFS;
  _filters : Terms
}.

(** A suspended generator of [JailsGenerator.__iter__]: the object it runs
    on and the datasets the [for] loop has not visited yet. *)
Record generator `{FilterEngine} : Type := {
  gen_self : instance;
  gen_pending : list libzfs.ZFSDataset
}.

(** What one [next()] does: the candidates for which a jail object was
    constructed while running to the following [yield] (in order), and the
    outcome: a yielded jail with the suspended generator, [None] for
    [StopIteration], or an exception. *)
Definition step `{FilterEngine} : Type :=
  (list libzfs.ZFSDataset * result (option (Jail * generator)))%type.

Module JailsGenerator.
Section Methods.
Context `{FilterEngine}.

(** Keys that are stored on the Jail object, not the configuration *)
Definition JAIL_KEYS : list string :=
  ["jid"; "name"; "running"; "ip4.addr"; "ip6.addr"].

Definition _create_jail (self : instance)
    (data : list (string * string)) : result Jail :=
  Jail_new data (logger self) (host self) (zfs self).

(** [list(jails_dataset.children)] *)
Definition jail_datasets (self : instance) : list libzfs.ZFSDataset :=
  jails_children (host self).

(** [dataset.name.split("/").pop()] *)
Definition _get_name_from_jail_dataset (dataset : libzfs.ZFSDataset)
  : result string :=
  match pop (split "/" (libzfs.name dataset)) with
  | Ok (seg, _) => Ok seg
  | Raise e => Raise e
  end.
End Methods.
End JailsGenerator.

Module Jails.
Section Methods.
Context `{FilterEngine}.

Definition _create_jail (self : instance)
    (data : list (string * string)) : result Jail :=
  Jail_new data (logger self) (host self) (zfs self).
End Methods.
End Jails.

Section Dispatch.
Context `{FilterEngine}.

(** [self._create_jail(...)]: the method of the object's own class. *)
Definition call__create_jail (self : instance)
    (data : list (string * string)) : result Jail :=
  match __class__ self with
  | JailsGenerator_class => JailsGenerator._create_jail self data
  | Jails_class => Jails._create_jail self data
  end.

(** [JailsGenerator._load_jail_from_dataset], inherited by [Jails]. *)
Definition _load_jail_from_dataset (self : instance)
    (dataset : libzfs.ZFSDataset) : result Jail :=
  match JailsGenerator._get_name_from_jail_dataset dataset with
  | Ok n => call__create_jail self [("name", n)]
  | Raise e => Raise e
  end.

(** The body of [JailsGenerator.__iter__], resumed with [pending] left
    to visit, run up to the following [yield]. *)
Fixpoint resume (self : instance) (pending : list libzfs.ZFSDataset)
  : step :=
  match pending with
  | [] => ([], Ok None)
  | jail_dataset :: rest =>
      match JailsGenerator._get_name_from_jail_dataset jail_dataset with
      | Raise e => ([], Raise e)
      | Ok jail_name =>
          if negb (match_key (_filters self) "name" jail_name)
          then resume self rest
          else
            match _load_jail_from_dataset self jail_dataset with
            | Raise e => ([jail_dataset], Raise e)
            | Ok jail =>
                if match_jail (_filters self) jail
                then ([jail_dataset],
                      Ok (Some (jail, {| gen_self := self;
                                         gen_pending := rest |})))
                else
                  let '(log, out) := resume self rest in
                  (jail_dataset :: log, out)
            end
      end
  end.

Definition next (g : generator) : step :=
  resume (gen_self g) (gen_pending g).
End Dispatch.

Section Iteration.
Context `{FilterEngine}.

(** [JailsGenerator.__iter__(self)]: calling the generator function
    creates the suspended generator; nothing of the body has run yet. *)
Definition JailsGenerator___iter__ (self : instance) : generator :=
  {| gen_self := self; gen_pending := JailsGenerator.jail_datasets self |}.

Lemma resume_shrinks self pending log jail g :
  resume self pending = (log, Ok (Some (jail, g))) ->
  length (gen_pending g) < length pending.
Proof.
  revert log. induction pending as [|d rest IH]; intros log; simpl.
  - discriminate.
  - destruct (JailsGenerator._get_name_from_jail_dataset d); [|discriminate].
    destruct (negb _).
    + intros E. apply IH in E. lia.
    + destruct (_load_jail_from_dataset self d); [|discriminate].
      destruct (match_jail _ _).
      * intros [= <- <- <-]. simpl. lia.
      * destruct (resume self rest) as [l o] eqn:E.
        intros [= <- ->]. specialize (IH _ eq_refl). lia.
Qed.

Definition inspect {A} (a : A) : {b : A | a = b} := exist _ a eq_refl.

(** Consuming a generator to the end, as [list(g)] or a [for] loop over
    it does: the jails yielded, the candidates for which a jail object
    was constructed, and how the iteration ended. *)
Equations exhaust (g : generator)
  : list Jail * list libzfs.ZFSDataset * result unit
  by wf (length (gen_pending g)) lt :=
exhaust g with inspect (next g) := {
  | exist _ (log, Raise e) _ => ([], log, Raise e)
  | exist _ (log, Ok None) _ => ([], log, Ok tt)
  | exist _ (log, Ok (Some (jail, g'))) E =>
      let '(jails, log', r) := exhaust g' in
      (jail :: jails, log ++ log', r)
}.
Next Obligation.
  intros. eapply resume_shrinks. exact E.
Qed.

(** [list(g)] *)
Definition py_list (g : generator) : result (list Jail) :=
  match exhaust g with
  | (jails, _, Ok _) => Ok jails
  | (_, _, Raise e) => Raise e
  end.

(** [Jails.__iter__]: [return list(JailsGenerator.__iter__(self))] *)
Definition Jails___iter__ (self : instance) : result (list Jail) :=
  py_list (JailsGenerator___iter__ self).
End Iteration.

(** ** The filter engine and a jail store, from the specification *)

Module JailFilter.

(** Modelled from the spec: [libiocage.lib.JailFilter] is not under src/.
    A FilterTerm is a key/value predicate on one attribute, a FilterSet
    an ordered collection of terms that must all match. *)
Record Term : Type := { key : string; value : string }.

Section Engine.
Context `{JailLib}.

(** Modelled from the spec: a runtime key is resolved on the jail
    object, any other key in the jail's configuration store; an unknown
    key resolves to nothing. *)
Definition resolve (jail : Jail) (k : string) : option string :=
  if bool_decide (k ∈ JailsGenerator.JAIL_KEYS)
  then jail_getattr jail k
  else jail_config jail k.

(** Modelled from the spec: [match(term, record)]; an unresolved key
    never matches. *)
Definition term_matches (t : Term) (jail : Jail) : bool :=
  match resolve jail (key t) with
  | Some v => String.eqb v (value t)
  | None => false
  end.

(** Modelled from the spec: [match_all(terms, record)], the conjunction
    of all terms. *)
Definition match_jail (terms : list Term) (jail : Jail) : bool :=
  forallb (fun t => term_matches t jail) terms.

(** Modelled from the spec: [match_key(key, value)], the single-key
    shortcut: every term on [k] accepts [v]; terms on other keys are
    not looked at. *)
Definition match_key (terms : list Term) (k v : string) : bool :=
  forallb (fun t => if String.eqb (key t) k
                    then String.eqb v (value t) else true) terms.

#[export] Instance engine : FilterEngine :=
  Build_FilterEngine _ (list Term) match_key match_jail.
End Engine.

(** Modelled from the spec: a FilterSet built from a single plain string
    is a name-equality term. *)
Definition of_name (x : string) : list Term :=
  [ {| key := "name"; value := x |} ].

End JailFilter.

Module Store.

(** Modelled from the spec: [libiocage.lib.Jail] and the host are not
    under src/. A host is the listing of the jails root dataset together
    with the configuration stored for each jail name; a loaded jail
    carries its name and its configuration. A jail without stored
    configuration fails to load. *)
Record host_state : Type := {
  children : list libzfs.ZFSDataset;
  configs : list (string * list (string * string))
}.

Record jail : Type := {
  jail_name : string;
  jail_conf : list (string * string)
}.

Fixpoint assoc {V} (k : string) (l : list (string * V)) : option V :=
  match l with
  | [] => None
  | (k', v) :: l' => if String.eqb k' k then Some v else assoc k l'
  end.

Definition load (data : list (string * string)) (h : host_state)
  : result jail :=
  match assoc "name" data with
  | None => Raise (ExternalError "jail without a name")
  | Some n =>
      match assoc n (configs h) with
      | None => Raise (ExternalError "jail configuration not readable")
      | Some c => Ok {| jail_name := n; jail_conf := c |}
      end
  end.

#[export] Instance lib : JailLib :=
  {| Logger := unit; Host := host_state; ZFS := unit;
     jails_children := children;
     Jail := jail;
     Jail_new := fun data _ h _ => load data h;
     jail_getattr := fun j k =>
       if String.eqb k "name" then Some (jail_name j) else None;
     jail_config := fun j k => assoc k (jail_conf j) |}.

Definition dataset (n : string) : libzfs.ZFSDataset :=
  {| libzfs.name := "zroot/iocage/jails/" +:+ n;
     libzfs.mountpoint := "/iocage/jails/" +:+ n |}.

(** The tree of the specification's scenario: children web1, web2, db1. *)
Definition example_host : host_state :=
  {| children := [dataset "web1"; dataset "web2"; dataset "db1"];
     configs := [("web1", [("boot", "on")]);
                 ("web2", [("boot", "off")]);
                 ("db1", [("boot", "on")])] |}.

End Store.

(** ** src/libioc/Provisioning/puppet.py *)

Module ControlRepoDefinition.

(** [class ControlRepoDefinition(dict)]: the entries of the underlying
    [dict] and the instance attributes; an attribute that was never
    assigned is [None] and reading it raises [AttributeError].

    The accessor pairs [url] and [name] are embedded as their docstrings
    describe them (set, respectively return, the value kept in [_url] and
    [_name]); the decorator expressions of the two setters are not
    embedded. *)
Record t : Type := {
  entries : gmap string (list string);
  _url : option string;
  _name : option string;
  _pkgs : option (list string)
}.

Definition getattr {A} (attr : string) (slot : option A) : result A :=
  match slot with
  | Some v => Ok v
  | None => Raise (AttributeError attr)
  end.

(** The body of [__init__], with the value of the local variable [_pkgs]
    when the body ends next to the initialised object: [_pkgs] is a name
    of the function's frame, it is not stored on [self]. *)
Definition __init___frame (name url : string) : t * list string :=
  let self := {| entries := ∅; _url := None; _name := None; _pkgs := None |} in
  let self := {| entries := entries self; _url := Some url;
                 _name := _name self; _pkgs := _pkgs self |} in
  let self := {| entries := entries self; _url := _url self;
                 _name := Some name; _pkgs := _pkgs self |} in
  let _pkgs := ["puppet6"] in
  let _pkgs :=
    if negb (startswith url "file://" || startswith url "/")
    then iadd_str _pkgs "rubygem-r10k"
    else _pkgs in
  (self, _pkgs).

Definition __init__ (name url : string) : t :=
  fst (__init___frame name url).

(** [str(self._url)] *)
Definition url (self : t) : result string := getattr "_url" (_url self).

Definition local (self : t) : result bool :=
  match url self with
  | Raise e => Raise e
  | Ok u =>
      if negb (startswith u "file://" || startswith u "/")
      then Ok false
      else Ok true
  end.

Definition remote (self : t) : result bool :=
  match local self with
  | Raise e => Raise e
  | Ok b => Ok (negb b)
  end.

Definition name (self : t) : result string := getattr "_name" (_name self).

(** [return self._pkgs] *)
Definition pkgs (self : t) : result (list string) :=
  getattr "_pkgs" (_pkgs self).

(** [self.keys()], inherited from [dict] *)
Definition keys (self : t) : gset string := dom (entries self).

(** The three string literals of [generate_postinstall], one list
    element for each line of the source. None of them is a formatted
    literal: the braces of [{self.url}] are characters of the text. *)
Definition postinstall_head : string :=
  String.concat nl
    ["#!/bin/sh";
     "        set -eu";
     "";
     "        "].

Definition postinstall_r10k : string :=
  String.concat nl
    ["cat > /usr/local/etc/r10k/r10k.yml <EOF";
     "            ---";
     "            :source:";
     "                puppet:";
     "                    basedir: /usr/local/etc/puppet/environments";
     "                    remote: {self.url}";
     "            >EOF";
     "";
     "            r10k deploy environment -p";
     "";
     "            "].

Definition postinstall_apply : string :=
  String.concat nl
    ["";
     "        puppet apply /usr/local/etc/puppet/environments/manifests/site.pp";
     "        "].

Definition generate_postinstall (self : t) : result string :=
  let postinstall := postinstall_head in
  match remote self with
  | Raise e => Raise e
  | Ok is_remote =>
      let postinstall :=
        if is_remote then postinstall +:+ postinstall_r10k
        else postinstall in
      let postinstall := postinstall +:+ postinstall_apply in
      Ok postinstall
  end.

End ControlRepoDefinition.

Module events.
(** [libioc.events]: the two event classes the provisioner creates, and
    whatever the package subsystem emits. An event object yields a
    [begin], [end] or [fail(error)] state. *)
Inductive event_class : Type :=
| JailProvisioning
| JailProvisioningAssetDownload
| Foreign (name : string).

Inductive phase : Type :=
| ev_begin
| ev_end
| ev_fail (error : exn).

Record IocEvent : Type := { kind : event_class; state : phase }.
End events.
Import events.

(** [self.jail.fstab.new_line(source=, destination=, options=,
    auto_create_destination=, replace=)]: the keyword arguments *)
Record MountEntry : Type := {
  source : string;
  destination : string;
  options : string;
  auto_create_destination : bool;
  replace : bool
}.

(** What [provision] asks of the outside, in the order it asks. *)
Inductive call : Type :=
| get_or_create_dataset_call (dataset_name : string)
| isdir_call (path : string)
| clone_from_call (url to_path : string)
| new_line_call (entry : MountEntry)
| save_call
| Pkg_call
| open_write_call (path text : string)
| fetch_and_install_call (packages : list string) (postinstall : string).

(** The collaborators of the provisioner (dataset store, file system,
    fetch client, mount table, package subsystem) over a state of the
    outside world. Each may raise, and may have changed the world when it
    does. *)
Class Collaborators : Type := {
  World : Type;
  get_or_create_dataset : string -> World -> result libzfs.ZFSDataset * World;
  isdir : string -> World -> bool;
  clone_from : string -> string -> World -> result unit * World;
  new_line : MountEntry -> World -> result unit * World;
  save : World -> result unit * World;
  Pkg_new : World -> result unit * World;
  open_write : string -> string -> World -> result unit * World;
  (** a generator: the events it yields, then how it ends *)
  fetch_and_install :
    list string -> string -> World -> list IocEvent * result unit * World
}.

(** [self] of [provision] ([libioc.Provisioning.Prototype]): the name of
    the jail's dataset, the source, and the source's name, whose reading
    may raise. *)
Record Prototype : Type := {
  jail_dataset_name : string;
  prov_source : string;
  prov_source_name : result string
}.

Module puppet.
Section Monad.
Context `{Collaborators}.

Record run_state : Type := {
  world : World;
  yielded : list IocEvent;
  calls : list call
}.

Definition M (A : Type) : Type := run_state -> result A * run_state.

#[export] Instance M_ret : MRet M := fun A a s => (Ok a, s).
#[export] Instance M_bind : MBind M := fun A B f m s =>
  match m s with
  | (Ok a, s') => f a s'
  | (Raise e, s') => (Raise e, s')
  end.

Definition raise {A} (e : exn) : M A := fun s => (Raise e, s).

Definition lift {A} (r : result A) : M A := fun s => (r, s).

(** [try: body  except Exception as e: handler(e)] *)
Definition try_except {A} (body : M A) (handler : exn -> M A) : M A :=
  fun s =>
    match body s with
    | (Ok a, s') => (Ok a, s')
    | (Raise e, s') => handler e s'
    end.

(** [yield ev] *)
Definition yield (ev : IocEvent) : M unit := fun s =>
  (Ok tt, {| world := world s; yielded := yielded s ++ [ev];
             calls := calls s |}).

(** A call of a collaborator: logged, then run on the world. *)
Definition invoke {A} (c : call) (f : World -> result A * World) : M A :=
  fun s =>
    let '(r, w) := f (world s) in
    (r, {| world := w; yielded := yielded s; calls := calls s ++ [c] |}).

(** [yield from g]: the events of the sub-generator are passed on. *)
Definition yield_from (c : call)
    (g : World -> list IocEvent * result unit * World) : M unit :=
  fun s =>
    let '(evs, r, w) := g (world s) in
    (r, {| world := w; yielded := yielded s ++ evs;
           calls := calls s ++ [c] |}).
End Monad.

Section Provision.
Context `{Collaborators}.

Definition start (w : World) : run_state :=
  {| world := w; yielded := []; calls := [] |}.

Definition event (k : event_class) (p : phase) : IocEvent :=
  {| kind := k; state := p |}.

(** [provision(self, event_scope)], run until the generator is
    exhausted or raises. *)
Definition provision (self : Prototype) : M unit :=
  let jailProvisioningEvent := event JailProvisioning in
  yield (jailProvisioningEvent ev_begin) ;;
  let jailProvisioningAssetDownloadEvent :=
    event JailProvisioningAssetDownload in
  pluginDefinition ←
    try_except
      (yield (jailProvisioningAssetDownloadEvent ev_begin) ;;
       name ← lift (prov_source_name self) ;
       let pluginDefinition :=
         ControlRepoDefinition.__init__ name (prov_source self) in
       yield (jailProvisioningAssetDownloadEvent ev_end) ;;
       mret pluginDefinition)
      (λ e, yield (jailProvisioningAssetDownloadEvent (ev_fail e)) ;;
            raise e) ;
  is_remote ← lift (ControlRepoDefinition.remote pluginDefinition) ;
  '(mode, mount_source) ←
    (if is_remote : bool then
       let mode := "rw" in
       let plugin_dataset_name := jail_dataset_name self +:+ "/puppet" in
       plugin_dataset ←
         invoke (get_or_create_dataset_call plugin_dataset_name)
                (get_or_create_dataset plugin_dataset_name) ;
       is_dir ←
         invoke (isdir_call plugin_dataset_name)
                (λ w, (Ok (isdir plugin_dataset_name w), w)) ;
       (if negb is_dir then
          url ← lift (ControlRepoDefinition.url pluginDefinition) ;
          invoke
            (clone_from_call url (libzfs.mountpoint plugin_dataset))
            (clone_from url (libzfs.mountpoint plugin_dataset))
        else mret tt) ;;
       let mount_source := libzfs.mountpoint plugin_dataset in
       mret (mode, mount_source)
     else
       let mode := "ro" in
       let mount_source := prov_source self in
       mret (mode, mount_source)) ;
  let entry :=
    {| source := mount_source;
       destination := "/usr/local/etc/puppet";
       options := mode;
       auto_create_destination := true;
       replace := true |} in
  invoke (new_line_call entry) (new_line entry) ;;
  invoke save_call save ;;
  pkg_packages ←
    (if bool_decide ("pkgs" ∈ ControlRepoDefinition.keys pluginDefinition)
     then lift (ControlRepoDefinition.pkgs pluginDefinition)
     else mret []) ;
  try_except
    (invoke Pkg_call Pkg_new ;;
     postinstall_script ←
       lift (ControlRepoDefinition.generate_postinstall pluginDefinition) ;
     let postinstall := "{self.jail.abspath}/launch-scripts/provision.sh" in
     invoke (open_write_call postinstall postinstall_script)
            (open_write postinstall postinstall_script) ;;
     yield_from (fetch_and_install_call pkg_packages postinstall)
                (fetch_and_install pkg_packages postinstall))
    (λ e, yield (jailProvisioningEvent (ev_fail e)) ;; raise e).

(** A whole run from a world: the outcome and the final state. *)
Definition run (self : Prototype) (w : World) : result unit * run_state :=
  provision self (start w).

(** A second run, started in the world the first one left. *)
Definition rerun (self : Prototype) (w : World)
  : result unit * run_state :=
  run self (world (snd (run self w))).
End Provision.
End puppet.

(** ** A machine for the collaborators, from the specification *)

Module Machine.

(** Modelled from the spec: the dataset store, the fetch client, the
    mount-table manager and the package subsystem are not under src/.
    Their contracts (section 6 of the specification) over a small world:
    the working directory of the process, the datasets and directories
    that exist, the checkout each directory holds, the mount table in
    memory and on disk, the files written and the packages installed. *)
Record world : Type := {
  cwd : string;
  datasets : list string;
  dirs : list string;
  checkouts : list (string * string);
  unreachable : list string;
  fstab_lines : list MountEntry;
  fstab_saved : list MountEntry;
  fstab_writable : bool;
  files : list (string * string);
  installed : list string
}.

Definition abspath (w : world) (path : string) : string :=
  if startswith path "/" then path else cwd w +:+ "/" +:+ path.

Fixpoint dirname (path : string) : string :=
  match path with
  | EmptyString => EmptyString
  | String c rest =>
      if contains rest "/" then String c (dirname rest) else EmptyString
  end.

Definition mem (x : string) (l : list string) : bool :=
  existsb (String.eqb x) l.

Definition isdir (path : string) (w : world) : bool :=
  mem (abspath w path) (dirs w).

(** Modelled from the spec: create-or-get, idempotent; a new dataset is
    mounted below the root under its own name. *)
Definition get_or_create_dataset (n : string) (w : world)
  : result libzfs.ZFSDataset * world :=
  let ds := {| libzfs.name := n; libzfs.mountpoint := "/" +:+ n |} in
  if mem n (datasets w) then (Ok ds, w)
  else (Ok ds,
        {| cwd := cwd w; datasets := datasets w ++ [n];
           dirs := dirs w ++ [libzfs.mountpoint ds];
           checkouts := checkouts w; unreachable := unreachable w;
           fstab_lines := fstab_lines w; fstab_saved := fstab_saved w;
           fstab_writable := fstab_writable w;
           files := files w; installed := installed w |}).

(** Modelled from the spec: clone, all or nothing; fails when the url is
    unreachable or the destination already holds something. *)
Definition clone_from (url to_path : string) (w : world)
  : result unit * world :=
  if mem url (unreachable w)
  then (Raise (ExternalError "repository unreachable"), w)
  else if mem to_path (map fst (checkouts w))
  then (Raise (ExternalError "destination path is not empty"), w)
  else (Ok tt,
        {| cwd := cwd w; datasets := datasets w;
           dirs := if mem to_path (dirs w) then dirs w
                   else dirs w ++ [to_path];
           checkouts := checkouts w ++ [(to_path, url)];
           unreachable := unreachable w;
           fstab_lines := fstab_lines w; fstab_saved := fstab_saved w;
           fstab_writable := fstab_writable w;
           files := files w; installed := installed w |}).

(** Modelled from the spec: upsert by destination. *)
Definition new_line (entry : MountEntry) (w : world)
  : result unit * world :=
  let kept :=
    if replace entry
    then filter (λ e, negb (String.eqb (destination e) (destination entry)))
                (fstab_lines w)
    else fstab_lines w in
  (Ok tt,
   {| cwd := cwd w; datasets := datasets w; dirs := dirs w;
      checkouts := checkouts w; unreachable := unreachable w;
      fstab_lines := kept ++ [entry]; fstab_saved := fstab_saved w;
      fstab_writable := fstab_writable w;
      files := files w; installed := installed w |}).

(** Modelled from the spec: durable, fails atomically. *)
Definition save (w : world) : result unit * world :=
  if fstab_writable w
  then (Ok tt,
        {| cwd := cwd w; datasets := datasets w; dirs := dirs w;
           checkouts := checkouts w; unreachable := unreachable w;
           fstab_lines := fstab_lines w; fstab_saved := fstab_lines w;
           fstab_writable := fstab_writable w;
           files := files w; installed := installed w |})
  else (Raise (ExternalError "fstab cannot be written"), w).

(** [open(path, 'w')] and [write]: the directory of the file must exist;
    prior content is overwritten. *)
Definition open_write (path text : string) (w : world)
  : result unit * world :=
  if isdir (dirname path) w
  then (Ok tt,
        {| cwd := cwd w; datasets := datasets w; dirs := dirs w;
           checkouts := checkouts w; unreachable := unreachable w;
           fstab_lines := fstab_lines w; fstab_saved := fstab_saved w;
           fstab_writable := fstab_writable w;
           files := (abspath w path, text)
                    :: filter (λ f, negb (String.eqb (fst f) (abspath w path)))
                              (files w);
           installed := installed w |})
  else (Raise (ExternalError "No such file or directory"), w).

(** Modelled from the spec: the package subsystem installs the packages
    and emits its own events. *)
Definition fetch_and_install (packages : list string) (postinstall : string)
    (w : world) : list IocEvent * result unit * world :=
  ([ {| kind := Foreign "PackageInstall"; state := ev_begin |};
     {| kind := Foreign "PackageInstall"; state := ev_end |} ],
   Ok tt,
   {| cwd := cwd w; datasets := datasets w; dirs := dirs w;
      checkouts := checkouts w; unreachable := unreachable w;
      fstab_lines := fstab_lines w; fstab_saved := fstab_saved w;
      fstab_writable := fstab_writable w;
      files := files w; installed := installed w ++ packages |}).

#[export] Instance collaborators : Collaborators :=
  Build_Collaborators world get_or_create_dataset isdir clone_from
    new_line save (λ w, (Ok tt, w)) open_write fetch_and_install.

(** A host on which the launch-script directory of the provisioner
    exists below the working directory of the process. *)
Definition fresh : world :=
  {| cwd := "/root";
     datasets := ["zroot/iocage/jails/web1"];
     dirs := ["/zroot/iocage/jails/web1";
              "/root/{self.jail.abspath}/launch-scripts"];
     checkouts := []; unreachable := [];
     fstab_lines := []; fstab_saved := []; fstab_writable := true;
     files := []; installed := [] |}.

Definition web1 (url : string) : Prototype :=
  {| jail_dataset_name := "zroot/iocage/jails/web1";
     prov_source := url;
     prov_source_name := Ok "my-puppet-env" |}.




End Machine.

(** ** Reference definitions, in the words of the specification *)

Section Reference.
Context `{FilterEngine}.

(** The candidate name of a dataset child, as a total function. *)
Definition derived_name (dataset : libzfs.ZFSDataset) : string :=
  match JailsGenerator._get_name_from_jail_dataset dataset with
  | Ok n => n
  | Raise _ => EmptyString
  end.

(** The enumeration as section 4.2 words it: list the children; derive
    the candidate name; skip the candidate when the name pre-filter
    rejects it; otherwise load the jail, check it against the complete
    filter set and only then emit it. The result is the jails emitted,
    the candidates loaded, and how the scan ended. *)
Fixpoint scan (filters : Terms) (lg : Logger) (h : Host) (z : ZFS)
    (candidates : list libzfs.ZFSDataset)
  : list Jail * list libzfs.ZFSDataset * result unit :=
  match candidates with
  | [] => ([], [], Ok tt)
  | d :: rest =>
      if match_key filters "name" (derived_name d) then
        match Jail_new [("name", derived_name d)] lg h z with
        | Raise e => ([], [d], Raise e)
        | Ok jail =>
            let '(jails, loaded, r) := scan filters lg h z rest in
            (if match_jail filters jail then jail :: jails else jails,
             d :: loaded, r)
        end
      else scan filters lg h z rest
  end.

(** What a consumer of the lazy enumeration sees: by repeated [next],
    the jails in the order they are yielded, up to [StopIteration]
    ([Ok tt]) or an exception. *)
Inductive drained : generator -> list Jail -> result unit -> Prop :=
| drained_stop g log :
    next g = (log, Ok None) -> drained g [] (Ok tt)
| drained_raise g log e :
    next g = (log, Raise e) -> drained g [] (Raise e)
| drained_yield g log jail g' jails r :
    next g = (log, Ok (Some (jail, g'))) ->
    drained g' jails r ->
    drained g (jail :: jails) r.
End Reference.

Section MountReference.
Context `{Collaborators}.

(** Locality of a source, section 4.3: local iff the url starts with
    [file://] or [/]. *)
Definition is_local (url : string) : bool :=
  startswith url "file://" || startswith url "/".

(** The mount entry of section 4.4, steps 3 and 4: read-only from the
    url itself for a local source; read-write from the mountpoint of the
    dataset [<jail-dataset>/puppet] for a remote one. *)
Definition expected_entry (self : Prototype) (w : World) : MountEntry :=
  let '(mode, src) :=
    if is_local (prov_source self) then ("ro", prov_source self)
    else
      match fst (get_or_create_dataset
                   (jail_dataset_name self +:+ "/puppet") w) with
      | Ok ds => ("rw", libzfs.mountpoint ds)
      | Raise _ => ("rw", EmptyString)
      end in
  {| source := src; destination := "/usr/local/etc/puppet";
     options := mode; auto_create_destination := true; replace := true |}.

Definition is_mount_call (c : call) : bool :=
  match c with
  | new_line_call _ | save_call => true
  | _ => false
  end.


End MountReference.

(** The scenario of the specification: children web1, web2, db1 and the
    filter [{name: "web1"}]. *)
Definition web1_only : @instance Store.lib (@JailFilter.engine Store.lib) :=
  Build_instance Store.lib JailFilter.engine JailsGenerator_class tt
    Store.example_host tt (JailFilter.of_name "web1").

(** ** Further reference definitions *)

(** A jails root with a child whose configuration cannot be read. *)
Definition host_with_unreadable_jail : Store.host_state :=
  {| Store.children :=
       [Store.dataset "web1"; Store.dataset "ghost"; Store.dataset "db1"];
     Store.configs := [("web1", [("boot", "on")]); ("db1", [("boot", "on")])] |}.

(** An enumeration without filter terms over a host. *)
Definition every_jail_of (h : Store.host_state)
  : @instance Store.lib (@JailFilter.engine Store.lib) :=
  Build_instance Store.lib JailFilter.engine Jails_class tt h tt [].

Section Plan.
Context `{Collaborators}.



End Plan.

(** * Properties *)

(** ** Candidate names *)

Section Names.

Lemma append_nil (s : string) : EmptyString +:+ s = s.
Proof. reflexivity. Qed.

Lemma append_cons c (s t : string) : String c s +:+ t = String c (s +:+ t).
Proof. reflexivity. Qed.

Lemma contains_slash_cons c n :
  Ascii.eqb c "/" = false ->
  contains n "/" = false ->
  contains (String c n) "/" = false.
Proof.
  intros Hc Hn. cbn [contains String.prefix]. rewrite Hn, orb_false_r.
  destruct (ascii_dec "/" c) as [<-|]; [discriminate | reflexivity].
Qed.

Lemma pop_snoc {A} (ws : list A) (n : A) : pop (ws ++ [n]) = Ok (n, ws).
Proof.
  induction ws as [|w ws IH]; [reflexivity|].
  simpl. rewrite IH. destruct (ws ++ [n]) eqn:E; [|reflexivity].
  destruct ws; discriminate.
Qed.

(** [split] ends with the text after the last separator. *)
Lemma split_last (s : string) :
  exists ws n,
    split "/" s = ws ++ [n] /\ contains n "/" = false /\
    ((ws = [] /\ s = n) \/ (ws <> [] /\ exists p, s = p +:+ "/" +:+ n)).
Proof.
  induction s as [|c s (ws & n & Hs & Hn & Hshape)].
  - exists [], EmptyString. repeat split; auto.
  - simpl. destruct (Ascii.eqb c "/") eqn:Hc.
    + apply Ascii.eqb_eq in Hc. subst c.
      exists (EmptyString :: ws), n. rewrite Hs. repeat split; auto.
      right. split; [discriminate|].
      destruct Hshape as [[_ ->] | [_ [p ->]]].
      * exists EmptyString. reflexivity.
      * exists (String "/" p). reflexivity.
    + rewrite Hs. destruct Hshape as [[-> ->] | [Hne [p ->]]].
      * exists [], (String c n). simpl. repeat split; auto.
        apply contains_slash_cons; auto.
      * destruct ws as [|w ws]; [congruence|].
        exists (String c w :: ws), n. repeat split; auto.
        right. split; [discriminate|]. exists (String c p). reflexivity.
Qed.

Lemma get_name_shape (s mp : string) :
  exists n,
    JailsGenerator._get_name_from_jail_dataset
      {| libzfs.name := s; libzfs.mountpoint := mp |} = Ok n /\
    contains n "/" = false /\
    ((contains s "/" = false /\ n = s) \/ exists p, s = p +:+ "/" +:+ n).
Proof.
  destruct (split_last s) as (ws & n & Hs & Hn & Hshape).
  exists n. unfold JailsGenerator._get_name_from_jail_dataset. simpl.
  rewrite Hs, pop_snoc. repeat split; auto.
  destruct Hshape as [[_ ->] | [_ Hp]]; auto.
Qed.

Lemma no_slash_suffix (p n : string) :
  contains n "/" = false -> contains (p +:+ "/" +:+ n) "/" = true.
Proof.
  intros _. induction p as [|c p IH].
  - destruct n; reflexivity.
  - rewrite append_cons. cbn [contains]. rewrite IH. apply orb_true_r.
Qed.

Lemma contains_trailing_slash (a : string) :
  contains (a +:+ "/") "/" = true.
Proof. exact (no_slash_suffix a EmptyString eq_refl). Qed.

Lemma append_slash_last (a b : string) n :
  contains n "/" = false -> a +:+ "/" = b +:+ "/" +:+ n -> n = EmptyString.
Proof.
  intros Hn. revert b. induction a as [|c a IH]; intros b E.
  - destruct b as [|c' b]; rewrite ?append_cons, ?append_nil in E.
    + injection E as <-. reflexivity.
    + injection E as <- E. destruct b; discriminate.
  - destruct b as [|c' b]; rewrite ?append_cons, ?append_nil in E.
    + injection E as -> E. subst n.
      rewrite contains_trailing_slash in Hn. discriminate.
    + injection E as _ E. eauto.
Qed.

(** C10. Candidate-name derivation is total: for every dataset identifier
    it returns (never raises) the text after the last ['/'], which itself
    holds no ['/']; an identifier without ['/'] is returned whole; an
    identifier that ends with ['/'] gives the empty name. *)
Theorem get_name_from_jail_dataset_total (s mp : string) :
  (exists n,
     JailsGenerator._get_name_from_jail_dataset
       {| libzfs.name := s; libzfs.mountpoint := mp |} = Ok n /\
     contains n "/" = false /\
     ((contains s "/" = false /\ n = s) \/ exists p, s = p +:+ "/" +:+ n))
  /\ JailsGenerator._get_name_from_jail_dataset
       {| libzfs.name := s +:+ "/"; libzfs.mountpoint := mp |}
     = Ok EmptyString.
Proof.
  split; [apply get_name_shape|].
  destruct (get_name_shape (s +:+ "/") mp) as (n & -> & Hn & Hshape).
  f_equal. destruct Hshape as [[Hs _] | [p Hp]].
  - rewrite contains_trailing_slash in Hs. discriminate.
  - eapply append_slash_last; eauto.
Qed.

End Names.

(** ** Enumeration *)

Section Enumeration.
Context `{FilterEngine}.

Lemma get_name_ok (d : libzfs.ZFSDataset) :
  JailsGenerator._get_name_from_jail_dataset d = Ok (derived_name d).
Proof.
  unfold derived_name. destruct d as [s mp].
  destruct (get_name_shape s mp) as (n & -> & _). reflexivity.
Qed.

(** Both classes construct the jail in the same way: the override in
    [Jails] has the body of the method it overrides. *)
Lemma load_jail_eq (self : instance) (d : libzfs.ZFSDataset) :
  _load_jail_from_dataset self d =
  Jail_new [("name", derived_name d)] (logger self) (host self) (zfs self).
Proof.
  unfold _load_jail_from_dataset, call__create_jail.
  rewrite get_name_ok. destruct (__class__ self); reflexivity.
Qed.

Lemma resume_scan (self : instance) (ds : list libzfs.ZFSDataset) :
  match resume self ds with
  | (log, Raise e) =>
      scan (_filters self) (logger self) (host self) (zfs self) ds
      = ([], log, Raise e)
  | (log, Ok None) =>
      scan (_filters self) (logger self) (host self) (zfs self) ds
      = ([], log, Ok tt)
  | (log, Ok (Some (jail, g'))) =>
      gen_self g' = self /\
      scan (_filters self) (logger self) (host self) (zfs self) ds
      = let '(jails, loaded, r) :=
          scan (_filters self) (logger self) (host self) (zfs self)
               (gen_pending g') in
        (jail :: jails, log ++ loaded, r)
  end.
Proof.
  induction ds as [|d rest IH]; [reflexivity|].
  cbn [resume scan]. rewrite get_name_ok, load_jail_eq.
  destruct (match_key (_filters self) "name" (derived_name d)); cbn [negb].
  - destruct (Jail_new _ _ _ _) as [jail|e]; [|reflexivity].
    destruct (match_jail (_filters self) jail).
    + split; [reflexivity|]. cbn [gen_pending].
      destruct (scan _ _ _ _ rest) as [[jails loaded] r]. reflexivity.
    + destruct (resume self rest) as [log [[[j g']|]|e]].
      * destruct IH as [Hs ->]. split; [exact Hs|].
        destruct (scan _ _ _ _ (gen_pending g')) as [[jails loaded] r].
        reflexivity.
      * rewrite IH. reflexivity.
      * rewrite IH. reflexivity.
  - exact IH.
Qed.

(** Consuming the generator is the scan of section 4.2. *)
Lemma exhaust_scan (g : generator) :
  exhaust g =
  scan (_filters (gen_self g)) (logger (gen_self g)) (host (gen_self g))
       (zfs (gen_self g)) (gen_pending g).
Proof.
  funelim (exhaust g);
    pose proof (resume_scan (gen_self g) (gen_pending g)) as R;
    match goal with E : next g = _ |- _ => unfold next in E; rewrite E in R end.
  - destruct R as [Hs R]. rewrite R, <- Hs.
    match goal with IH : exhaust g' = _ |- _ => rewrite <- IH end.
    reflexivity.
  - symmetry. exact R.
  - symmetry. exact R.
Qed.

Lemma drained_exhaust (g : generator) :
  drained g (exhaust g).1.1 (exhaust g).2.
Proof.
  funelim (exhaust g);
    match goal with E : next g = _ |- _ => rename E into Hnext end.
  - match goal with IH : drained g' _ _ |- _ => revert IH end.
    destruct (exhaust g') as [[jails loaded] r]. intros IH.
    eapply drained_yield; [exact Hnext | exact IH].
  - eapply drained_stop. exact Hnext.
  - eapply drained_raise. exact Hnext.
Qed.

Lemma scan_loaded_prefilter f lg h z ds d :
  d ∈ (scan f lg h z ds).1.2 ->
  match_key f "name" (derived_name d) = true.
Proof.
  induction ds as [|c rest IH]; cbn [scan].
  - cbn. intros Hd. inversion Hd.
  - destruct (match_key f "name" (derived_name c)) eqn:Hk; [|exact IH].
    destruct (Jail_new _ _ _ _) as [jail|e].
    + destruct (scan f lg h z rest) as [[jails loaded] r]. cbn in *.
      intros [->|Hd]%elem_of_cons; auto.
    + cbn. intros [->|Hd]%elem_of_cons; [auto | inversion Hd].
Qed.

Lemma scan_jails_match f lg h z ds jail :
  jail ∈ (scan f lg h z ds).1.1 -> match_jail f jail = true.
Proof.
  induction ds as [|c rest IH]; cbn [scan].
  - cbn. intros Hd. inversion Hd.
  - destruct (match_key f "name" (derived_name c)); [|exact IH].
    destruct (Jail_new _ _ _ _) as [j|e].
    + destruct (scan f lg h z rest) as [[jails loaded] r]. cbn in *.
      destruct (match_jail f j) eqn:Hm; [|exact IH].
      intros [->|Hd]%elem_of_cons; auto.
    + cbn. intros Hd. inversion Hd.
Qed.

Lemma scan_complete f lg h z ds d :
  (scan f lg h z ds).2 = Ok tt ->
  d ∈ ds ->
  match_key f "name" (derived_name d) = true ->
  d ∈ (scan f lg h z ds).1.2 /\
  exists jail,
    Jail_new [("name", derived_name d)] lg h z = Ok jail /\
    (match_jail f jail = true -> jail ∈ (scan f lg h z ds).1.1).
Proof.
  induction ds as [|c rest IH]; cbn [scan].
  - intros _ Hd. inversion Hd.
  - destruct (match_key f "name" (derived_name c)) eqn:Hk.
    + destruct (Jail_new [("name", derived_name c)] lg h z) as [j|e] eqn:Hj;
        [|discriminate].
      destruct (scan f lg h z rest) as [[jails loaded] r]. cbn in *.
      intros Hr [->|Hd]%elem_of_cons Hm.
      * split; [left|]. exists j. split; [exact Hj|].
        intros ->. left.
      * destruct (IH Hr Hd Hm) as [Hl (j' & Hj' & Hy)].
        split; [right; exact Hl|]. exists j'. split; [exact Hj'|].
        intros Hm'. specialize (Hy Hm').
        destruct (match_jail f j); [right|]; exact Hy.
    + intros Hr [->|Hd]%elem_of_cons Hm; [congruence|]. auto.
Qed.

End Enumeration.

Section EagerAndLazy.
Context `{FilterEngine}.

(** C9. For every filter set and every state of the dataset store, the
    eager enumeration ([Jails.__iter__], on an object of class [Jails])
    returns, as one materialised list, exactly the jails that a consumer of
    the lazy enumeration ([JailsGenerator.__iter__], on an object of class
    [JailsGenerator]) receives by repeated [next], in the same order; when
    the lazy enumeration raises, the eager one raises the same exception.
    Both are the scan of section 4.2 of the specification. *)
Theorem eager_enumeration_is_drained_lazy
    (lg : Logger) (h : Host) (z : ZFS) (f : Terms) :
  let lazy_obj :=
    {| __class__ := JailsGenerator_class; logger := lg; host := h;
       zfs := z; _filters := f |} in
  let eager_obj :=
    {| __class__ := Jails_class; logger := lg; host := h;
       zfs := z; _filters := f |} in
  exists jails r,
    drained (JailsGenerator___iter__ lazy_obj) jails r /\
    Jails___iter__ eager_obj
    = match r with Ok _ => Ok jails | Raise e => Raise e end /\
    (scan f lg h z (jails_children h)).1.1 = jails /\
    (scan f lg h z (jails_children h)).2 = r.
Proof.
  intros lazy_obj eager_obj.
  exists (exhaust (JailsGenerator___iter__ lazy_obj)).1.1,
         (exhaust (JailsGenerator___iter__ lazy_obj)).2.
  split; [apply drained_exhaust|].
  unfold Jails___iter__, py_list. rewrite !exhaust_scan. cbn.
  unfold JailsGenerator.jail_datasets. cbn.
  destruct (scan f lg h z (jails_children h)) as [[jails loaded] [[]|e]];
    repeat split; reflexivity.
Qed.

End EagerAndLazy.

Section PreFilter.
Context `{JailLib}.

Lemma match_key_name_term (terms : list JailFilter.Term) (x n : string) :
  In {| JailFilter.key := "name"; JailFilter.value := x |} terms ->
  JailFilter.match_key terms "name" n = true ->
  n = x.
Proof.
  intros Hin Hm. unfold JailFilter.match_key in Hm.
  rewrite forallb_forall in Hm. specialize (Hm _ Hin). cbn in Hm.
  apply String.eqb_eq. exact Hm.
Qed.

(** C8. With the filter engine of the specification and a filter set whose
    name term is [{name: x}]: the lazy enumeration constructs no jail
    object for a candidate whose derived name is not [x]; and when the
    enumeration runs to its end, every candidate that passes the name
    pre-filter is loaded, and its jail is among the yielded ones if and
    only if it matches the complete filter set. *)
Theorem name_prefilter_sound (x : string)
    (self : @instance _ JailFilter.engine) :
  In {| JailFilter.key := "name"; JailFilter.value := x |} (_filters self) ->
  let out := exhaust (JailsGenerator___iter__ self) in
  (forall d, derived_name d <> x -> d ∉ out.1.2) /\
  (out.2 = Ok tt ->
   forall d, d ∈ JailsGenerator.jail_datasets self ->
     match_key (_filters self) "name" (derived_name d) = true ->
     d ∈ out.1.2 /\
     exists jail,
       _load_jail_from_dataset self d = Ok jail /\
       (jail ∈ out.1.1 <-> match_jail (_filters self) jail = true)).
Proof.
  intros Hterm out. subst out. rewrite exhaust_scan.
  cbn [gen_self gen_pending JailsGenerator___iter__]. split.
  - intros d Hne Hd. apply scan_loaded_prefilter in Hd.
    apply Hne. eapply match_key_name_term; eauto.
  - intros Hr d Hd Hk.
    destruct (scan_complete _ _ _ _ _ d Hr Hd Hk) as [Hl (jail & Hj & Hy)].
    split; [exact Hl|]. exists jail. rewrite load_jail_eq.
    split; [exact Hj|]. split; [apply scan_jails_match | exact Hy].
Qed.

End PreFilter.

Example enumerate_web1 :
  exhaust (JailsGenerator___iter__ web1_only)
  = ([ {| Store.jail_name := "web1"; Store.jail_conf := [("boot", "on")] |} ],
     [ Store.dataset "web1" ],
     Ok tt).
Proof. vm_compute. reflexivity. Qed.

Lemma name_prefilter_sound_witness :
  In {| JailFilter.key := "name"; JailFilter.value := "web1" |}
     (_filters web1_only) /\
  let out := exhaust (JailsGenerator___iter__ web1_only) in
  (forall d, derived_name d <> "web1" -> d ∉ out.1.2) /\
  (out.2 = Ok tt ->
   forall d, d ∈ JailsGenerator.jail_datasets web1_only ->
     match_key (_filters web1_only) "name" (derived_name d) = true ->
     d ∈ out.1.2 /\
     exists jail,
       _load_jail_from_dataset web1_only d = Ok jail /\
       (jail ∈ out.1.1 <-> match_jail (_filters web1_only) jail = true)).
Proof.
  split; [left; reflexivity|].
  apply (name_prefilter_sound "web1" web1_only). left. reflexivity.
Defined.

(** ** The control-repo definition *)

Section Descriptor.

Lemma url_init (name url : string) :
  ControlRepoDefinition.url (ControlRepoDefinition.__init__ name url) = Ok url.
Proof. reflexivity. Qed.

Lemma remote_init (name url : string) :
  ControlRepoDefinition.remote (ControlRepoDefinition.__init__ name url)
  = Ok (negb (is_local url)).
Proof.
  unfold ControlRepoDefinition.remote, ControlRepoDefinition.local.
  rewrite url_init. unfold is_local.
  destruct (startswith url "file://" || startswith url "/"); reflexivity.
Qed.

Lemma keys_init (name url : string) :
  ControlRepoDefinition.keys (ControlRepoDefinition.__init__ name url) = ∅.
Proof. apply dom_empty_L. Qed.

Lemma pkgs_key_init (name url : string)
    `{!Decision ("pkgs" ∈ ControlRepoDefinition.keys
                           (ControlRepoDefinition.__init__ name url))} :
  bool_decide
    ("pkgs" ∈ ControlRepoDefinition.keys
                (ControlRepoDefinition.__init__ name url)) = false.
Proof.
  apply bool_decide_eq_false. rewrite (keys_init name url). set_solver.
Qed.

Lemma generate_postinstall_init (name url : string) :
  ControlRepoDefinition.generate_postinstall
    (ControlRepoDefinition.__init__ name url)
  = Ok (if is_local url
        then ControlRepoDefinition.postinstall_head
             +:+ ControlRepoDefinition.postinstall_apply
        else (ControlRepoDefinition.postinstall_head
              +:+ ControlRepoDefinition.postinstall_r10k)
             +:+ ControlRepoDefinition.postinstall_apply).
Proof.
  unfold ControlRepoDefinition.generate_postinstall.
  rewrite remote_init. destruct (is_local url); reflexivity.
Qed.


End Descriptor.

Section DescriptorClaims.



End DescriptorClaims.

(** ** The provisioning pipeline *)

(** Case analysis of a run: unfold the monad, then split on the outcome of
    each collaborator in the order [provision] calls them. *)
Ltac run_unfold :=
  unfold puppet.rerun, puppet.run, puppet.provision, puppet.try_except,
    puppet.yield, puppet.invoke, puppet.yield_from, puppet.lift,
    puppet.raise, puppet.start, mbind, mret, puppet.M_bind, puppet.M_ret.

Ltac run_step :=
  first
    [ rewrite remote_init | rewrite pkgs_key_init
    | rewrite generate_postinstall_init | rewrite url_init
    | match goal with
      | |- context [prov_source_name ?s] =>
          destruct (prov_source_name s) as [?|?] eqn:?
      | |- context [get_or_create_dataset ?n ?w] =>
          destruct (get_or_create_dataset n w) as [[?|?] ?] eqn:?
      | |- context [isdir ?n ?w] => destruct (isdir n w) eqn:?
      | |- context [clone_from ?u ?p ?w] =>
          destruct (clone_from u p w) as [[[]|?] ?] eqn:?
      | |- context [new_line ?e ?w] =>
          destruct (new_line e w) as [[[]|?] ?] eqn:?
      | |- context [save ?w] => destruct (save w) as [[[]|?] ?] eqn:?
      | |- context [Pkg_new ?w] => destruct (Pkg_new w) as [[[]|?] ?] eqn:?
      | |- context [open_write ?p ?t ?w] =>
          destruct (open_write p t w) as [[[]|?] ?] eqn:?
      | |- context [fetch_and_install ?p ?t ?w] =>
          destruct (fetch_and_install p t w) as [[? [[]|?]] ?] eqn:?
      | |- context [negb (is_local ?u)] => destruct (is_local u) eqn:?
      end ];
  cbn beta iota zeta;
  cbn [negb puppet.world puppet.yielded puppet.calls fst snd app].

Ltac run_cases := run_unfold; repeat run_step.




Section Pipeline.
Context `{Collaborators}.

Abbreviation JP := (puppet.event JailProvisioning).
Abbreviation AD := (puppet.event JailProvisioningAssetDownload).

(** Every run starts by yielding the begin of the provisioning event. *)
Lemma provision_begins (self : Prototype) (w : World) :
  exists evs,
    puppet.yielded (snd (puppet.run self w)) = JP ev_begin :: evs.
Proof. run_cases; eexists; reflexivity. Qed.





End Pipeline.

Section MountStep.
Context `{Collaborators}.


End MountStep.

(** ** Runs on the machine of the specification *)

Abbreviation run_on := (@puppet.run Machine.collaborators).
Abbreviation rerun_on := (@puppet.rerun Machine.collaborators).
Abbreviation JP := (puppet.event JailProvisioning).
Abbreviation AD := (puppet.event JailProvisioningAssetDownload).
Abbreviation PKG := (puppet.event (Foreign "PackageInstall")).






(** The scenarios of section 8: a local path gives a read-only entry from
    the path itself, a remote url a read-write entry from the mountpoint of
    the puppet dataset. *)
Example mount_entry_local :
  @expected_entry Machine.collaborators
    (Machine.web1 "/srv/puppet-env") Machine.fresh
  = {| source := "/srv/puppet-env"; destination := "/usr/local/etc/puppet";
       options := "ro"; auto_create_destination := true; replace := true |}.
Proof. vm_compute. reflexivity. Qed.

Example mount_entry_remote :
  List.filter is_mount_call
    (puppet.calls (snd (run_on (Machine.web1 "https://git.example/env.git")
                               Machine.fresh)))
  = [new_line_call
       {| source := "/zroot/iocage/jails/web1/puppet";
          destination := "/usr/local/etc/puppet";
          options := "rw"; auto_create_destination := true;
          replace := true |};
     save_call].
Proof. vm_compute. reflexivity. Qed.



(** * Further properties of the code *)

(** ** Jails.py *)

Section MoreNames.

Lemma last_slash_unique (p p' n n' : string) :
  contains n "/" = false -> contains n' "/" = false ->
  p +:+ "/" +:+ n = p' +:+ "/" +:+ n' -> n = n'.
Proof.
  intros Hn Hn'. revert p'. induction p as [|c p IH]; intros [|c' p'] E;
    rewrite ?append_cons, ?append_nil in E.
  - injection E as ->. reflexivity.
  - injection E as _ E. subst n.
    discriminate (eq_trans (eq_sym (no_slash_suffix p' n' Hn')) Hn).
  - injection E as _ E. subst n'.
    discriminate (eq_trans (eq_sym (no_slash_suffix p n Hn)) Hn').
  - injection E as _ E. eauto.
Qed.

(** The name of a child dataset read back: for every parent path and
    every name without ['/'], the candidate name derived from
    [parent/name] is [name]. *)
Theorem get_name_of_child (parent n mp : string) :
  contains n "/" = false ->
  JailsGenerator._get_name_from_jail_dataset
    {| libzfs.name := parent +:+ "/" +:+ n; libzfs.mountpoint := mp |}
  = Ok n.
Proof.
  intros Hn.
  destruct (get_name_shape (parent +:+ "/" +:+ n) mp)
    as (n' & -> & Hn' & [[Hs _] | [p' Hp]]).
  - rewrite no_slash_suffix in Hs by exact Hn. discriminate.
  - f_equal. symmetry. eapply last_slash_unique; eauto.
Qed.

Lemma get_name_of_child_witness :
  contains "web1" "/" = false /\
  JailsGenerator._get_name_from_jail_dataset
    {| libzfs.name := "zroot/iocage/jails" +:+ "/" +:+ "web1";
       libzfs.mountpoint := "/iocage/jails/web1" |}
  = Ok "web1".
Proof.
  split; [reflexivity|].
  apply (get_name_of_child "zroot/iocage/jails" "web1" "/iocage/jails/web1").
  reflexivity.
Defined.

End MoreNames.

Section MoreEnumeration.
Context `{FilterEngine}.

Lemma scan_sublists f lg h z ds :
  (scan f lg h z ds).1.2 `sublist_of` ds /\
  exists kept,
    kept `sublist_of` (scan f lg h z ds).1.2 /\
    Forall2 (λ jail d, Jail_new [("name", derived_name d)] lg h z = Ok jail)
            (scan f lg h z ds).1.1 kept.
Proof.
  induction ds as [|c rest (IHl & kept & Hk & Hj)]; cbn [scan].
  - split; [constructor|]. exists []. split; constructor.
  - destruct (match_key f "name" (derived_name c)).
    + destruct (Jail_new [("name", derived_name c)] lg h z) as [j|e] eqn:Hc.
      * destruct (scan f lg h z rest) as [[jails loaded] r]. cbn in *.
        split; [apply sublist_skip; exact IHl|].
        destruct (match_jail f j).
        -- exists (c :: kept). split; [apply sublist_skip; exact Hk|].
           constructor; assumption.
        -- exists kept. split; [apply sublist_cons; exact Hk | exact Hj].
      * cbn. split; [apply sublist_skip, sublist_nil_l|].
        exists []. split; [apply sublist_nil_l | constructor].
    + split; [apply sublist_cons; exact IHl|]. exists kept. split; assumption.
Qed.

(** The enumeration follows the listing of the dataset store: the
    candidates for which a jail is constructed are a sub-sequence of the
    children of the jails root, in the listing order, and the jails
    yielded are, in the same order, the jails loaded from a sub-sequence of
    those candidates. Nothing is sorted, reordered or loaded twice. *)
Theorem enumeration_keeps_listing_order (self : instance) :
  (exhaust (JailsGenerator___iter__ self)).1.2
    `sublist_of` JailsGenerator.jail_datasets self
  /\ exists kept,
       kept `sublist_of` (exhaust (JailsGenerator___iter__ self)).1.2 /\
       Forall2 (λ jail d, _load_jail_from_dataset self d = Ok jail)
               (exhaust (JailsGenerator___iter__ self)).1.1 kept.
Proof.
  rewrite exhaust_scan. cbn [gen_self gen_pending JailsGenerator___iter__].
  destruct (scan_sublists (_filters self) (logger self) (host self)
              (zfs self) (JailsGenerator.jail_datasets self))
    as (Hl & kept & Hk & Hj).
  split; [exact Hl|]. exists kept. split; [exact Hk|].
  eapply Forall2_impl; [exact Hj|]. intros jail d Hd.
  rewrite load_jail_eq. exact Hd.
Qed.

Lemma resume_frontier (self : instance) pending log jail g' :
  resume self pending = (log, Ok (Some (jail, g'))) ->
  exists skipped d,
    pending = skipped ++ d :: gen_pending g' /\
    (exists log', log = log' ++ [d] /\ log' `sublist_of` skipped) /\
    _load_jail_from_dataset self d = Ok jail /\
    match_jail (_filters self) jail = true /\
    gen_self g' = self.
Proof.
  revert log. induction pending as [|c rest IH]; intros log; cbn [resume].
  - discriminate.
  - rewrite get_name_ok.
    destruct (match_key (_filters self) "name" (derived_name c)); cbn [negb].
    + destruct (_load_jail_from_dataset self c) as [j|e] eqn:Hc;
        [|discriminate].
      destruct (match_jail (_filters self) j) eqn:Hm.
      * intros [= <- <- <-]. exists [], c. cbn.
        repeat split; auto. exists []. split; [reflexivity | constructor].
      * destruct (resume self rest) as [l o] eqn:E. intros [= <- ->].
        destruct (IH _ eq_refl)
          as (skipped & d & -> & (log' & -> & Hs) & Hd & Hj & Hg).
        exists (c :: skipped), d. repeat split; auto.
        exists (c :: log'). split; [reflexivity | apply sublist_skip, Hs].
    + intros E.
      destruct (IH _ E) as (skipped & d & -> & (log' & -> & Hs) & Hd & Hj & Hg).
      exists (c :: skipped), d. repeat split; auto.
      exists log'. split; [reflexivity | apply sublist_cons, Hs].
Qed.

(** One [next] is lazy: when it yields a jail, it has consumed the pending
    candidates only up to the one the jail was loaded from; that candidate
    is the last one for which a jail was constructed, the ones constructed
    before it were among the candidates it passed over, and every candidate
    after it is still pending, untouched. The jail yielded matches the
    complete filter set. *)
Theorem next_loads_up_to_yield (g : generator) log jail g' :
  next g = (log, Ok (Some (jail, g'))) ->
  exists skipped d,
    gen_pending g = skipped ++ d :: gen_pending g' /\
    (exists log', log = log' ++ [d] /\ log' `sublist_of` skipped) /\
    _load_jail_from_dataset (gen_self g) d = Ok jail /\
    match_jail (_filters (gen_self g)) jail = true /\
    gen_self g' = gen_self g.
Proof. apply resume_frontier. Qed.

Lemma scan_ok_iff f lg h z ds :
  (scan f lg h z ds).2 = Ok tt <->
  Forall (λ d, match_key f "name" (derived_name d) = true ->
               exists jail,
                 Jail_new [("name", derived_name d)] lg h z = Ok jail) ds.
Proof.
  induction ds as [|c rest IH]; cbn [scan].
  - split; [constructor | reflexivity].
  - destruct (match_key f "name" (derived_name c)) eqn:Hk.
    + destruct (Jail_new [("name", derived_name c)] lg h z) as [j|e] eqn:Hc.
      * destruct (scan f lg h z rest) as [[jails loaded] r]. cbn in *.
        rewrite IH. split.
        -- intros Hr. constructor; [eauto | exact Hr].
        -- intros [_ Hr]%Forall_cons. exact Hr.
      * cbn. split; [discriminate|]. intros [Hd _]%Forall_cons.
        destruct (Hd Hk) as [j Hj]. congruence.
    + rewrite IH. split.
      * intros Hr. constructor; [rewrite Hk; discriminate | exact Hr].
      * intros [_ Hr]%Forall_cons. exact Hr.
Qed.

(** The eager enumeration returns a list exactly when every child whose
    name passes the name pre-filter can be loaded: one unreadable jail
    among them makes the whole call raise, while an unreadable jail whose
    name the pre-filter rejects does no harm. *)
Theorem eager_succeeds_iff_candidates_load (self : instance) :
  (exists jails, Jails___iter__ self = Ok jails) <->
  Forall (λ d, match_key (_filters self) "name" (derived_name d) = true ->
               exists jail, _load_jail_from_dataset self d = Ok jail)
         (JailsGenerator.jail_datasets self).
Proof.
  unfold Jails___iter__, py_list. rewrite exhaust_scan.
  cbn [gen_self gen_pending JailsGenerator___iter__].
  pose proof (scan_ok_iff (_filters self) (logger self) (host self)
                (zfs self) (JailsGenerator.jail_datasets self)) as Hiff.
  assert (Hload : forall d, _load_jail_from_dataset self d
            = Jail_new [("name", derived_name d)] (logger self) (host self)
                (zfs self)) by (intros d; apply load_jail_eq).
  destruct (scan _ _ _ _ _) as [[jails loaded] [[]|e]]; cbn in Hiff.
  - split; [intros _ | intros _; eauto].
    eapply Forall_impl; [apply Hiff; reflexivity|].
    cbn. intros d Hd Hk. rewrite Hload. auto.
  - split; [intros [l Hl]; discriminate|]. intros HF. exfalso.
    assert (Raise e = Ok tt) as Habs; [|discriminate Habs].
    apply Hiff. eapply Forall_impl; [exact HF|].
    cbn. intros d Hd Hk. rewrite <- Hload. auto.
Qed.

Lemma scan_app f lg h z pre rest :
  scan f lg h z (pre ++ rest) =
  match scan f lg h z pre with
  | (jails, loaded, Ok _) =>
      let '(jails', loaded', r) := scan f lg h z rest in
      (jails ++ jails', loaded ++ loaded', r)
  | (jails, loaded, Raise e) => (jails, loaded, Raise e)
  end.
Proof.
  induction pre as [|c pre IH]; cbn [scan app].
  - destruct (scan f lg h z rest) as [[jails loaded] r]. reflexivity.
  - destruct (match_key f "name" (derived_name c)); [|exact IH].
    destruct (Jail_new [("name", derived_name c)] lg h z) as [j|e];
      [|reflexivity].
    rewrite IH. destruct (scan f lg h z pre) as [[jails loaded] [[]|e]].
    + destruct (scan f lg h z rest) as [[jails' loaded'] r].
      destruct (match_jail f j); reflexivity.
    + reflexivity.
Qed.

(** A jail that fails to load ends the scan where it stands: when the
    candidates before it were enumerated without error, the enumeration
    yields exactly their jails, constructs nothing after the failing
    candidate, and raises its exception; the eager enumeration raises the
    same exception and returns none of the jails found before. *)
Theorem enumeration_stops_at_failing_jail (self : instance)
    (pre post : list libzfs.ZFSDataset) (d : libzfs.ZFSDataset)
    (jails : list Jail) (loaded : list libzfs.ZFSDataset) (e : exn) :
  JailsGenerator.jail_datasets self = pre ++ d :: post ->
  exhaust {| gen_self := self; gen_pending := pre |} = (jails, loaded, Ok tt) ->
  match_key (_filters self) "name" (derived_name d) = true ->
  _load_jail_from_dataset self d = Raise e ->
  exhaust (JailsGenerator___iter__ self) = (jails, loaded ++ [d], Raise e)
  /\ Jails___iter__ self = Raise e.
Proof.
  intros Hds Hpre Hk Hd. rewrite load_jail_eq in Hd.
  assert (exhaust (JailsGenerator___iter__ self)
          = (jails, loaded ++ [d], Raise e)) as Hex.
  { rewrite exhaust_scan in *.
    cbn [gen_self gen_pending JailsGenerator___iter__] in *.
    rewrite Hds, scan_app, Hpre. cbn [scan]. rewrite Hk, Hd.
    rewrite app_nil_r. reflexivity. }
  split; [exact Hex|]. unfold Jails___iter__, py_list. rewrite Hex.
  reflexivity.
Qed.

End MoreEnumeration.

Lemma enumeration_stops_at_failing_jail_witness :
  exhaust (JailsGenerator___iter__ (every_jail_of host_with_unreadable_jail))
  = ([ {| Store.jail_name := "web1"; Store.jail_conf := [("boot", "on")] |} ],
     [Store.dataset "web1"] ++ [Store.dataset "ghost"],
     Raise (ExternalError "jail configuration not readable"))
  /\ Jails___iter__ (every_jail_of host_with_unreadable_jail)
     = Raise (ExternalError "jail configuration not readable").
Proof.
  apply (enumeration_stops_at_failing_jail
           (every_jail_of host_with_unreadable_jail)
           [Store.dataset "web1"] [Store.dataset "db1"]
           (Store.dataset "ghost")).
  - reflexivity.
  - vm_compute. reflexivity.
  - reflexivity.
  - vm_compute. reflexivity.
Defined.

Lemma next_loads_up_to_yield_witness :
  exists skipped d,
    gen_pending (JailsGenerator___iter__ web1_only)
    = skipped ++ d :: [Store.dataset "web2"; Store.dataset "db1"] /\
    (exists log', [Store.dataset "web1"] = log' ++ [d]
                  /\ log' `sublist_of` skipped) /\
    _load_jail_from_dataset web1_only d
    = Ok {| Store.jail_name := "web1"; Store.jail_conf := [("boot", "on")] |}
    /\ match_jail (_filters web1_only)
         {| Store.jail_name := "web1"; Store.jail_conf := [("boot", "on")] |}
       = true
    /\ web1_only = web1_only.
Proof.
  apply (next_loads_up_to_yield
           (JailsGenerator___iter__ web1_only) [Store.dataset "web1"]
           {| Store.jail_name := "web1"; Store.jail_conf := [("boot", "on")] |}
           {| gen_self := web1_only;
              gen_pending := [Store.dataset "web2"; Store.dataset "db1"] |}).
  vm_compute. reflexivity.
Defined.

(** ** puppet.py *)


Section MorePipeline.
Context `{Collaborators}.



End MorePipeline.





